(** * A gateway in front of a derivatives exchange: model of [main.py]

    The program is a FastAPI application exposing one exchange SDK
    ([GrvtCcxt]) through HTTP endpoints, with two module-level SDK clients
    ([read_client], [trade_client]).  Every endpoint receives one of the two
    clients through [Depends(get_read_api)] or [Depends(get_trade_api)],
    performs at most one SDK call inside [try: ... except Exception], and
    turns every exception of the body into [HTTPException(500, str(e))].

    The model keeps that shape:
    - Python values are a small inductive type [pyval]; dictionaries are
      [gmap string pyval];
    - the SDK, the random generator [rand_uint32] and Python's [str] on
      floats and exceptions are not part of the program: they are the
      variables of a section;
    - an endpoint is a computation in a trace-and-exception monad [M]: the
      trace records every random draw and every SDK call together with the
      client it was made on. *)

From Stdlib Require Import ZArith Floats.
From stdpp Require Import base option list strings pretty gmap.

Set Warnings "-register-all".
Open Scope string_scope.
Open Scope Z_scope.
Open Scope list_scope.

(** ** Python values *)

(** The values that travel through the gateway.  [PyDecimal s] is
    [Decimal(s)]; dictionaries are finite maps keyed by strings. *)
Inductive pyval : Type :=
| PyNone
| PyBool (b : bool)
| PyInt (z : Z)
| PyFloat (x : float)
| PyStr (s : string)
| PyDecimal (s : string)
| PyList (l : list pyval)
| PyDict (d : gmap string pyval).

(** Python truthiness of the three kinds of optional request fields that
    the endpoints test with [if x:] / [if not x:]. *)
Definition truthy_str (o : option string) : bool :=
  match o with
  | None => false
  | Some s => negb (String.eqb s "")
  end.

Definition truthy_int (o : option Z) : bool :=
  match o with
  | None => false
  | Some z => negb (Z.eqb z 0)
  end.

Definition truthy_float (o : option float) : bool :=
  match o with
  | None => false
  | Some x => negb (PrimFloat.eqb x 0%float)
  end.

Definition truthy_list {A} (o : option (list A)) : bool :=
  match o with
  | None | Some [] => false
  | Some (_ :: _) => true
  end.

(** [x if x is not None else None] seen from the callee: an [Optional]
    field handed on as a Python value. *)
Definition py_opt {A} (f : A -> pyval) (o : option A) : pyval :=
  match o with
  | Some a => f a
  | None => PyNone
  end.

(** A dictionary literal [{k1: v1, ...}] (the literals of the program have
    pairwise distinct keys). *)
Definition dict (l : list (string * pyval)) : gmap string pyval :=
  list_to_map l.

(** ** Exceptions, SDK clients and calls *)

(** [HTTPException] is FastAPI's; everything the SDK or the interpreter
    raises is an [Exception] with its class name and message. *)
Inductive exn : Type :=
| HTTPException (status_code : Z) (detail : string)
| Exception (cls : string) (msg : string).

Inductive outcome (A : Type) : Type :=
| Return (a : A)
| Raise (e : exn).
Arguments Return {A} a.
Arguments Raise {A} e.

(** A [GrvtCcxt] object, identified by what it was constructed from: the
    environment and the [parameters] dictionary holding its credentials. *)
Record GrvtCcxt : Type := {
  env : string;
  parameters : gmap string pyval
}.

(** One method call on a client: the method's name, its positional
    arguments and its keyword arguments. *)
Record Call : Type := {
  method : string;
  args : list pyval;
  kwargs : gmap string pyval
}.

(** What a request leaves behind: the draws of [rand_uint32] and the SDK
    calls, each with the client it was made on, oldest first. *)
Inductive Event : Type :=
| EvRand (v : Z)
| EvCall (api : GrvtCcxt) (c : Call).

Definition Trace : Type := list Event.

(** The SDK calls of a trace, and the clients they were made on. *)
Definition exchange_calls (tr : Trace) : list (GrvtCcxt * Call) :=
  omap (fun ev => match ev with
                  | EvCall api c => Some (api, c)
                  | EvRand _ => None
                  end) tr.

Definition clients_used (tr : Trace) : list GrvtCcxt :=
  (exchange_calls tr).*1.

(** ** The monad of endpoint bodies *)

Definition M (A : Type) : Type := Trace -> outcome A * Trace.

#[global] Instance M_ret : MRet M := fun A (a : A) tr => (Return a, tr).

#[global] Instance M_bind : MBind M := fun A B (f : A -> M B) (m : M A) tr =>
  match m tr with
  | (Return a, tr') => f a tr'
  | (Raise e, tr') => (Raise e, tr')
  end.

Definition raise {A} (e : exn) : M A := fun tr => (Raise e, tr).

(** [try: m  except Exception as e: h e] *)
Definition try_except {A} (m : M A) (h : exn -> M A) : M A := fun tr =>
  match m tr with
  | (Return a, tr') => (Return a, tr')
  | (Raise e, tr') => h e tr'
  end.

(** ** Request models *)

Record OrderRequest : Type := {
  symbol : string;
  side : string;
  amount : float;
  price : option float;
  order_type : string
}.

Record CancelOrderRequest : Type := {
  order_id : option string;
  client_order_id : option Z
}.

(** [gt=0] on a float field. *)
Definition gt_zero (x : float) : bool := PrimFloat.ltb 0%float x.

(** The [Field] constraints that pydantic checks before an endpoint runs:
    [side] and [order_type] match their patterns, [amount] and a given
    [price] are [gt=0]. *)
Definition OrderRequest_validated (order : OrderRequest) : Prop :=
  (side order = "buy" \/ side order = "sell") /\
  gt_zero (amount order) = true /\
  (forall p, price order = Some p -> gt_zero p = true) /\
  (order_type order = "limit" \/ order_type order = "market").

(** ** Module-level state *)

Record Globals : Type := {
  read_client : option GrvtCcxt;
  trade_client : option GrvtCcxt
}.

Definition get_read_api (g : Globals) : outcome GrvtCcxt :=
  match read_client g with
  | None => Raise (HTTPException 503 "Read Client not initialized")
  | Some c => Return c
  end.

Definition get_trade_api (g : Globals) : outcome GrvtCcxt :=
  match trade_client g with
  | None => Raise (HTTPException 503 "Trade Client not initialized")
  | Some c => Return c
  end.

(** ** What the statements below speak about *)

(** A submission the endpoint is meant to accept: the fields passed
    pydantic, and a limit order has its price. *)
Definition valid_submission (order : OrderRequest) : Prop :=
  OrderRequest_validated order /\
  (order_type order = "limit" -> is_Some (price order)).

(** The time-to-live a call carries in its [params] dictionary, if any. *)
Definition time_to_live (c : Call) : option pyval :=
  match kwargs c !! "params" with
  | Some (PyDict params) => params !! "time_to_live_ms"
  | _ => None
  end.

(** The correlation identifier a call carries in its [params]. *)
Definition correlation_id (c : Call) : option pyval :=
  match kwargs c !! "params" with
  | Some (PyDict params) => params !! "client_order_id"
  | _ => None
  end.

Definition is_uint32 (z : Z) : bool := (0 <=? z) && (z <? 2 ^ 32).

(** ** Stand-ins for the outside world

    A deterministic SDK and generator, used to run the endpoints on
    concrete requests. *)

Definition demo_rand_uint32 (tr : Trace) : Z := 4242 + Z.of_nat (length tr).

(** Acknowledges everything; its account summary lacks [derisk_margin]. *)
Definition demo_sdk (tr : Trace) (api : GrvtCcxt) (c : Call) : outcome pyval :=
  if String.eqb (method c) "get_account_summary" then
    Return (PyDict (dict [("maintenance_margin", PyStr "12.5");
                          ("derisk_to_maintenance_margin_ratio", PyStr "2.0")]))
  else Return (PyDict (dict [("method", PyStr (method c))])).

(** An exchange that rejects every call. *)
Definition demo_rejecting_sdk (tr : Trace) (api : GrvtCcxt) (c : Call) : outcome pyval :=
  Raise (Exception "GrvtError" ("rejected: " +:+ method c)).

(** An exchange that answers [None] to every call. *)
Definition demo_null_sdk (tr : Trace) (api : GrvtCcxt) (c : Call) : outcome pyval :=
  Return PyNone.

(** Starlette's rendering of an [HTTPException]; the message otherwise. *)
Definition demo_str_exn (e : exn) : string :=
  match e with
  | HTTPException status_code detail => pretty status_code +:+ ": " +:+ detail
  | Exception _ msg => msg
  end.

(** [str] on the floats of the sample orders. *)
Definition demo_str_float (x : float) : string :=
  if PrimFloat.eqb x 0.5%float then "0.5"
  else if PrimFloat.eqb x 2%float then "2.0"
  else "nan".

Definition demo_read_client : GrvtCcxt :=
  {| env := "testnet"; parameters := dict [("api_key", PyStr "READ-KEY")] |}.

Definition demo_trade_client : GrvtCcxt :=
  {| env := "testnet"; parameters := dict [("api_key", PyStr "TRADE-KEY")] |}.

Definition demo_globals : Globals :=
  {| read_client := Some demo_read_client; trade_client := Some demo_trade_client |}.

Definition demo_limit_order : OrderRequest :=
  {| symbol := "BTC_USDT_Perp"; side := "buy"; amount := 0.5%float;
     price := Some 2%float; order_type := "limit" |}.

Definition demo_market_order : OrderRequest :=
  {| symbol := "BTC_USDT_Perp"; side := "sell"; amount := 0.5%float;
     price := None; order_type := "market" |}.

Definition uninitialized : Globals :=
  {| read_client := None; trade_client := None |}.

(** An environment with every variable of the program set but [GRVT_ENV]. *)
Definition demo_getenv (name : string) : option string :=
  if String.eqb name "GRVT_ENV" then None else Some ("value of " +:+ name).

(** A constructor that never raises. *)
Definition demo_GrvtCcxt_init (c : GrvtCcxt) : option exn := None.

(** ** The endpoints *)

Section Gateway.

(** What the program calls but does not define: the SDK's random
    identifier, the SDK's methods (the answer may depend on everything that
    happened before), and Python's [str] on exceptions and floats. *)
Variable rand_uint32 : Trace -> Z.
Variable sdk : Trace -> GrvtCcxt -> Call -> outcome pyval.
Variable str_exn : exn -> string.
Variable str_float : float -> string.

Definition draw_uint32 : M Z := fun tr =>
  let v := rand_uint32 tr in (Return v, tr ++ [EvRand v]).

(** [api.method(args, kwargs)]: the call is recorded, then the SDK answers
    or raises. *)
Definition call (api : GrvtCcxt) (method : string) (args : list pyval)
    (kwargs : list (string * pyval)) : M pyval := fun tr =>
  let c := {| method := method; args := args; kwargs := dict kwargs |} in
  (sdk tr api c, tr ++ [EvCall api c]).

(** [type(v).__name__], as Python prints it in an [AttributeError]. *)
Definition type_name (v : pyval) : string :=
  match v with
  | PyNone => "NoneType"
  | PyBool _ => "bool"
  | PyInt _ => "int"
  | PyFloat _ => "float"
  | PyStr _ => "str"
  | PyDecimal _ => "decimal.Decimal"
  | PyList _ => "list"
  | PyDict _ => "dict"
  end.

(** [acc_summary.get(key)]: the value, [None] when the key is missing; a
    value that is not a dictionary has no [get]. *)
Definition py_get (v : pyval) (key : string) : M pyval :=
  match v with
  | PyDict d => mret (default PyNone (d !! key))
  | _ => raise (Exception "AttributeError"
                  ("'" +:+ type_name v +:+ "' object has no attribute 'get'"))
  end.

(** [except Exception as e: raise HTTPException(status_code=500, detail=str(e))] *)
Definition except_Exception {A} (e : exn) : M A :=
  raise (HTTPException 500 (str_exn e)).

Definition health_check : M pyval :=
  mret (PyDict (dict [("status", PyStr "ok"); ("service", PyStr "GRVT API Proxy")])).

Definition get_markets (api : GrvtCcxt) : M pyval :=
  try_except (call api "fetch_all_markets" [] []) except_Exception.

Definition get_ticker (symbol : string) (api : GrvtCcxt) : M pyval :=
  try_except (call api "fetch_ticker" [PyStr symbol] []) except_Exception.

Definition get_order_book (symbol : string) (limit : Z) (api : GrvtCcxt) : M pyval :=
  try_except
    (call api "fetch_order_book" [PyStr symbol] [("limit", PyInt limit)])
    except_Exception.

Definition get_balance (api : GrvtCcxt) : M pyval :=
  try_except (call api "fetch_balance" [] []) except_Exception.

Definition get_account_summary (type : string) (api : GrvtCcxt) : M pyval :=
  try_except
    (call api "get_account_summary" [] [("type", PyStr type)])
    except_Exception.

Definition get_positions (symbols : option (list string)) (api : GrvtCcxt) : M pyval :=
  try_except
    (let target_symbols :=
       if truthy_list symbols then default [] symbols else ["BTC_USDT_Perp"] in
     call api "fetch_positions" [] [("symbols", PyList (PyStr <$> target_symbols))])
    except_Exception.

(** The [try] block of [create_order]. *)
Definition create_order_try (order : OrderRequest) (api : GrvtCcxt) : M pyval :=
  client_order_id ← draw_uint32;
  let params := PyDict (dict [("client_order_id", PyInt client_order_id)]) in
  response ←
    (if String.eqb (order_type order) "market" then
       call api "create_order" []
         [("symbol", PyStr (symbol order));
          ("order_type", PyStr "market");
          ("side", PyStr (side order));
          ("amount", PyDecimal (str_float (amount order)));
          ("params", params)]
     else
       if negb (truthy_float (price order)) then
         raise (HTTPException 400 "Limit order requires price")
       else
         call api "create_order" []
           [("symbol", PyStr (symbol order));
            ("order_type", PyStr "limit");
            ("side", PyStr (side order));
            ("amount", PyFloat (amount order));
            ("price", py_opt PyFloat (price order));
            ("params", params)]);
  mret (PyDict (dict [("client_order_id", PyInt client_order_id);
                      ("response", response)])).

Definition create_order (order : OrderRequest) (api : GrvtCcxt) : M pyval :=
  try_except (create_order_try order api) except_Exception.

Definition get_open_orders_endpoint (symbol : string) (api : GrvtCcxt) : M pyval :=
  try_except
    (call api "fetch_open_orders" []
       [("symbol", PyStr symbol);
        ("params", PyDict (dict [("kind", PyStr "PERPETUAL")]))])
    except_Exception.

(** The [try] block of [cancel_order_endpoint]. *)
Definition cancel_order_try (request : CancelOrderRequest) (api : GrvtCcxt) : M pyval :=
  if truthy_str (order_id request) then
    success ← call api "cancel_order" []
      [("id", py_opt PyStr (order_id request));
       ("params", PyDict (dict [("time_to_live_ms", PyStr "1000")]))];
    mret (PyDict (dict [("status", PyStr "success"); ("result", success)]))
  else if truthy_int (client_order_id request) then
    success ← call api "cancel_order" []
      [("id", PyNone);
       ("params", PyDict (dict [("client_order_id", py_opt PyInt (client_order_id request));
                                ("time_to_live_ms", PyStr "1000")]))];
    mret (PyDict (dict [("status", PyStr "success"); ("result", success)]))
  else
    raise (HTTPException 400 "Must provide order_id or client_order_id").

Definition cancel_order_endpoint (request : CancelOrderRequest) (api : GrvtCcxt) : M pyval :=
  try_except (cancel_order_try request api) except_Exception.

Definition cancel_all_orders_endpoint (api : GrvtCcxt) : M pyval :=
  try_except
    (response ← call api "cancel_all_orders" [] [];
     mret (PyDict (dict [("status", PyStr "success"); ("response", response)])))
    except_Exception.

Definition get_derisk_ratio (api : GrvtCcxt) : M pyval :=
  try_except
    (acc_summary ← call api "get_account_summary" [] [("type", PyStr "sub-account")];
     maintenance_margin ← py_get acc_summary "maintenance_margin";
     derisk_margin ← py_get acc_summary "derisk_margin";
     derisk_ratio ← py_get acc_summary "derisk_to_maintenance_margin_ratio";
     mret (PyDict (dict [("maintenance_margin", maintenance_margin);
                         ("derisk_margin", derisk_margin);
                         ("derisk_ratio", derisk_ratio)])))
    except_Exception.

Definition set_derisk_ratio (ratio : string) (api : GrvtCcxt) : M pyval :=
  try_except
    (_ ← call api "set_derisk_mm_ratio" [PyStr ratio] [];
     mret (PyDict (dict [("status", PyStr "success"); ("new_ratio", PyStr ratio)])))
    except_Exception.

Definition get_exchange_description (api : GrvtCcxt) : M pyval :=
  try_except (call api "describe" [] []) except_Exception.

(** [symbol] is accepted and not handed on. *)
Definition get_order_history (symbol : option string) (limit : Z) (api : GrvtCcxt) : M pyval :=
  try_except
    (let request_params := PyDict (dict [("kind", PyStr "PERPETUAL"); ("limit", PyInt limit)]) in
     call api "fetch_order_history" [] [("params", request_params)])
    except_Exception.

Definition get_my_trades (symbol : string) (limit : Z) (api : GrvtCcxt) : M pyval :=
  try_except
    (call api "fetch_my_trades" []
       [("symbol", PyStr symbol); ("limit", PyInt limit); ("params", PyDict (dict []))])
    except_Exception.

(** [since = int(start_time * 1_000_000) if start_time else None] *)
Definition funding_since (start_time : option Z) : option Z :=
  if truthy_int start_time then (fun t => t * 1000000) <$> start_time else None.

Definition get_funding_history (symbol : string) (limit : Z) (start_time : option Z)
    (api : GrvtCcxt) : M pyval :=
  try_except
    (let since := funding_since start_time in
     funding_history ← call api "fetch_funding_rate_history" []
       [("symbol", PyStr symbol); ("since", py_opt PyInt since); ("limit", PyInt limit)];
     mret funding_history)
    except_Exception.

Definition get_account_history (limit : Z) (api : GrvtCcxt) : M pyval :=
  try_except
    (call api "fetch_account_history" []
       [("params", PyDict (dict [("limit", PyInt limit)]))])
    except_Exception.

(** ** Routing *)

(** A parsed request: the route and the arguments FastAPI hands to the
    endpoint (defaults already filled in). *)
Inductive Request : Type :=
| GET_root
| GET_markets
| GET_ticker (symbol : string)
| GET_orderbook (symbol : string) (limit : Z)
| GET_account_balance
| GET_account_summary (type : string)
| GET_account_positions (symbols : option (list string))
| POST_orders (order : OrderRequest)
| GET_orders_open (symbol : string)
| DELETE_orders (request : CancelOrderRequest)
| DELETE_orders_all
| GET_risk_derisk_ratio
| POST_risk_derisk_ratio (ratio : string)
| GET_exchange_info
| GET_history_orders (symbol : option string) (limit : Z)
| GET_history_trades (symbol : string) (limit : Z)
| GET_history_funding (symbol : string) (limit : Z) (start_time : option Z)
| GET_history_account (limit : Z).

(** The two dependency functions an endpoint can name in [Depends]. *)
Inductive Dependency : Type :=
| Depends_get_read_api
| Depends_get_trade_api.

Definition resolve (d : Dependency) : Globals -> outcome GrvtCcxt :=
  match d with
  | Depends_get_read_api => get_read_api
  | Depends_get_trade_api => get_trade_api
  end.

(** The client a dependency hands out, when it is set. *)
Definition handle (g : Globals) (d : Dependency) : option GrvtCcxt :=
  match d with
  | Depends_get_read_api => read_client g
  | Depends_get_trade_api => trade_client g
  end.

Inductive Route : Type :=
| Plain (body : M pyval)
| Depends (d : Dependency) (body : GrvtCcxt -> M pyval).

(** The decorators and signatures of the program: which function serves a
    request, and which dependency fills its [api] parameter. *)
Definition route (r : Request) : Route :=
  match r with
  | GET_root => Plain health_check
  | GET_markets => Depends Depends_get_read_api get_markets
  | GET_ticker symbol => Depends Depends_get_read_api (get_ticker symbol)
  | GET_orderbook symbol limit => Depends Depends_get_read_api (get_order_book symbol limit)
  | GET_account_balance => Depends Depends_get_read_api get_balance
  | GET_account_summary type => Depends Depends_get_read_api (get_account_summary type)
  | GET_account_positions symbols => Depends Depends_get_read_api (get_positions symbols)
  | POST_orders order => Depends Depends_get_read_api (create_order order)
  | GET_orders_open symbol => Depends Depends_get_read_api (get_open_orders_endpoint symbol)
  | DELETE_orders request => Depends Depends_get_read_api (cancel_order_endpoint request)
  | DELETE_orders_all => Depends Depends_get_read_api cancel_all_orders_endpoint
  | GET_risk_derisk_ratio => Depends Depends_get_read_api get_derisk_ratio
  | POST_risk_derisk_ratio ratio => Depends Depends_get_read_api (set_derisk_ratio ratio)
  | GET_exchange_info => Depends Depends_get_read_api get_exchange_description
  | GET_history_orders symbol limit => Depends Depends_get_trade_api (get_order_history symbol limit)
  | GET_history_trades symbol limit => Depends Depends_get_trade_api (get_my_trades symbol limit)
  | GET_history_funding symbol limit start_time =>
      Depends Depends_get_trade_api (get_funding_history symbol limit start_time)
  | GET_history_account limit => Depends Depends_get_trade_api (get_account_history limit)
  end.

(** The dependency is resolved first; what it raises leaves the endpoint
    without running its body. *)
Definition app (g : Globals) (r : Request) : M pyval :=
  match route r with
  | Plain body => body
  | Depends d body =>
      match resolve d g with
      | Return api => body api
      | Raise e => raise e
      end
  end.

Inductive HttpResponse : Type :=
| Http200 (body : pyval)
| HttpError (status : Z) (detail : string).

(** FastAPI's answer: an [HTTPException] becomes a response with its status
    and detail, any other exception the plain 500.  A returned value is
    shown as the endpoint returned it, before FastAPI encodes it as JSON. *)
Definition respond (o : outcome pyval) : HttpResponse :=
  match o with
  | Return v => Http200 v
  | Raise (HTTPException status detail) => HttpError status detail
  | Raise (Exception _ _) => HttpError 500 "Internal Server Error"
  end.

Definition serve (g : Globals) (r : Request) (tr : Trace) : HttpResponse * Trace :=
  let (o, tr') := app g r tr in (respond o, tr').

(** ** Observations on responses and traces *)

Definition status (response : HttpResponse) : Z :=
  match response with
  | Http200 _ => 200
  | HttpError status _ => status
  end.


(** The endpoints whose [try] block is [return api.method(...)] (for the
    funding history: the call's result bound to a name, then returned). *)
Definition pass_through (r : Request) : bool :=
  match r with
  | GET_markets | GET_ticker _ | GET_orderbook _ _ | GET_account_balance
  | GET_account_summary _ | GET_account_positions _ | GET_orders_open _
  | GET_exchange_info | GET_history_orders _ _ | GET_history_trades _ _
  | GET_history_funding _ _ _ | GET_history_account _ => true
  | GET_root | POST_orders _ | DELETE_orders _ | DELETE_orders_all
  | GET_risk_derisk_ratio | POST_risk_derisk_ratio _ => false
  end.

(** ** Startup *)

(** Whether constructing a client raises ([GrvtEnv] rejecting the
    environment name counts as the first construction raising). *)
Variable GrvtCcxt_init : GrvtCcxt -> option exn.

(** The part of [lifespan] before [yield]: the read client is built and
    stored first, then the trade client; an exception leaves the globals as
    they are at that point and aborts startup. *)
Definition lifespan (getenv : string -> option string) (g : Globals)
    : outcome unit * Globals :=
  let env := default "testnet" (getenv "GRVT_ENV") in
  let api_private_key := getenv "GRVT_PRIVATE_KEY" in
  let read_params :=
    dict [("api_key", py_opt PyStr (getenv "GRVT_API_KEY"));
          ("trading_account_id", py_opt PyStr (getenv "GRVT_TRADING_ACCOUNT_ID"));
          ("private_key", py_opt PyStr api_private_key)] in
  let rc := {| env := env; parameters := read_params |} in
  match GrvtCcxt_init rc with
  | Some e => (Raise e, g)
  | None =>
      let trade_params :=
        dict [("api_key", py_opt PyStr (getenv "GRVT_API_TRADE_KEY"));
              ("trading_account_id", py_opt PyStr (getenv "GRVT_TRADING_ACCOUNT_TRADE_ID"));
              ("private_key", py_opt PyStr api_private_key)] in
      let tc := {| env := env; parameters := trade_params |} in
      match GrvtCcxt_init tc with
      | Some e => (Raise e, {| read_client := Some rc; trade_client := trade_client g |})
      | None => (Return tt, {| read_client := Some rc; trade_client := Some tc |})
      end
  end.

(** ** Properties *)

(** *** Auxiliary facts *)

(** Unfolds the monad down to the SDK's answer. *)
Ltac run_endpoint :=
  unfold try_except, mbind, M_bind, mret, M_ret, draw_uint32, call, raise,
    except_Exception;
  cbn.

(** After the draw and the call of a submission: both answers of the SDK
    leave the same trace, and only an acknowledgement is returned. *)
Ltac submitted Hsdk :=
  rewrite <- app_assoc; repeat split; try reflexivity;
  let response := fresh "response" in
  let Hr := fresh "Hr" in
  intros response Hr; rewrite Hsdk in Hr; congruence.

Lemma gt_zero_truthy (x : float) :
  gt_zero x = true -> truthy_float (Some x) = true.
Proof.
  unfold gt_zero, truthy_float.
  rewrite FloatAxioms.ltb_spec, FloatAxioms.eqb_spec.
  replace (Prim2SF 0%float) with (S754_zero false) by reflexivity.
  unfold SFltb, SFeqb.
  destruct (Prim2SF x) as [s | s | | s m e]; simpl; try discriminate; try reflexivity.
  all: destruct s; simpl; try discriminate; reflexivity.
Qed.

Lemma exchange_calls_app (tr1 tr2 : Trace) :
  exchange_calls (tr1 ++ tr2) = exchange_calls tr1 ++ exchange_calls tr2.
Proof. unfold exchange_calls. apply omap_app. Qed.

(** *** Order submission *)

(** C5. For every valid order submission, the client order id is drawn
    before the exchange is called, the call carries it in its [params] as
    [client_order_id], and when the exchange acknowledges, the endpoint
    returns the drawn id together with the acknowledgement. *)
Theorem create_order_correlation (order : OrderRequest) (api : GrvtCcxt) (tr : Trace) :
  valid_submission order ->
  let id := rand_uint32 tr in
  exists c : Call,
    snd (create_order order api tr) = tr ++ [EvRand id; EvCall api c] /\
    method c = "create_order" /\
    correlation_id c = Some (PyInt id) /\
    forall response : pyval,
      sdk (tr ++ [EvRand id]) api c = Return response ->
      fst (create_order order api tr)
      = Return (PyDict (dict [("client_order_id", PyInt id); ("response", response)])).
Proof.
  intros [(_ & _ & Hprice & Htype) Hlimit] id.
  unfold create_order, create_order_try. unfold try_except, mbind, M_bind, draw_uint32.
  fold id.
  destruct (String.eqb_spec (order_type order) "market") as [Hm | Hm].
  - eexists. run_endpoint.
    destruct (sdk _ api _) eqn:Hsdk; cbn; submitted Hsdk.
  - destruct Htype as [Hl | ?]; [| contradiction].
    destruct (Hlimit Hl) as [p Hp].
    rewrite Hp, (gt_zero_truthy p (Hprice p Hp)).
    eexists. run_endpoint.
    destruct (sdk _ api _) eqn:Hsdk; cbn; submitted Hsdk.
Qed.

(** C2. A limit order without a price: the body raises the 400 it was
    written to raise, no SDK call is made, but the surrounding
    [except Exception] catches that very exception and the client receives
    status 500. *)
Theorem create_order_limit_without_price (symbol side : string) (amount : float)
    (api : GrvtCcxt) (tr : Trace) :
  let order := {| symbol := symbol; side := side; amount := amount;
                  price := None; order_type := "limit" |} in
  fst (create_order_try order api tr)
    = Raise (HTTPException 400 "Limit order requires price") /\
  respond (fst (create_order order api tr))
    = HttpError 500 (str_exn (HTTPException 400 "Limit order requires price")) /\
  exchange_calls (snd (create_order order api tr)) = exchange_calls tr.
Proof.
  cbn. unfold create_order, create_order_try, try_except, mbind, M_bind, draw_uint32.
  cbn. repeat split.
  rewrite exchange_calls_app. cbn. apply app_nil_r.
Qed.

(** A limit order with a positive price makes exactly one SDK call, and
    that call carries the price. *)
Lemma create_order_limit_with_price (order : OrderRequest) (p : float)
    (api : GrvtCcxt) (tr : Trace) :
  order_type order = "limit" ->
  price order = Some p ->
  gt_zero p = true ->
  exists c : Call,
    exchange_calls (snd (create_order order api tr)) = exchange_calls tr ++ [(api, c)] /\
    method c = "create_order" /\
    kwargs c !! "price" = Some (PyFloat p).
Proof.
  intros Ht Hp Hpos.
  unfold create_order, create_order_try, try_except, mbind, M_bind, draw_uint32.
  rewrite Ht, Hp, (gt_zero_truthy p Hpos). cbn.
  eexists. unfold call. cbn.
  destruct (sdk _ api _); cbn;
    rewrite <- app_assoc, exchange_calls_app; cbn; repeat split; reflexivity.
Qed.

(** *** Cancellation *)

(** C3. A cancel request with neither identifier: the body raises the 400
    it was written to raise and calls nothing, but the surrounding
    [except Exception] turns it into status 500. *)
Theorem cancel_without_identifier (api : GrvtCcxt) (tr : Trace) :
  let request := {| order_id := None; client_order_id := None |} in
  cancel_order_try request api tr
    = (Raise (HTTPException 400 "Must provide order_id or client_order_id"), tr) /\
  cancel_order_endpoint request api tr
    = (Raise (HTTPException 500
         (str_exn (HTTPException 400 "Must provide order_id or client_order_id"))), tr) /\
  respond (fst (cancel_order_endpoint request api tr))
    = HttpError 500 (str_exn (HTTPException 400 "Must provide order_id or client_order_id")).
Proof. repeat split. Qed.

(** The call made for a request with a non-empty order id. *)
Lemma cancel_by_order_id_trace (request : CancelOrderRequest) (oid : string)
    (api : GrvtCcxt) (tr : Trace) :
  order_id request = Some oid ->
  oid <> "" ->
  snd (cancel_order_endpoint request api tr)
  = tr ++ [EvCall api
             {| method := "cancel_order"; args := [];
                kwargs := dict [("id", PyStr oid);
                                ("params", PyDict (dict [("time_to_live_ms", PyStr "1000")]))] |}].
Proof.
  intros Ho Hne.
  unfold cancel_order_endpoint, cancel_order_try, try_except, mbind, M_bind, truthy_str.
  rewrite Ho. apply String.eqb_neq in Hne. rewrite Hne. cbn.
  unfold call. destruct (sdk tr api _); reflexivity.
Qed.

(** The call made for a request cancelled by client id. *)
Lemma cancel_by_client_id_trace (request : CancelOrderRequest) (cid : Z)
    (api : GrvtCcxt) (tr : Trace) :
  truthy_str (order_id request) = false ->
  client_order_id request = Some cid ->
  cid <> 0 ->
  snd (cancel_order_endpoint request api tr)
  = tr ++ [EvCall api
             {| method := "cancel_order"; args := [];
                kwargs := dict [("id", PyNone);
                                ("params", PyDict (dict [("client_order_id", PyInt cid);
                                                         ("time_to_live_ms", PyStr "1000")]))] |}].
Proof.
  intros Ho Hc Hne.
  unfold cancel_order_endpoint, cancel_order_try, try_except, mbind, M_bind, truthy_int.
  rewrite Ho, Hc. apply Z.eqb_neq in Hne. rewrite Hne. cbn.
  unfold call. destruct (sdk tr api _); reflexivity.
Qed.

(** A request with no truthy identifier calls nothing. *)
Lemma cancel_rejected_trace (request : CancelOrderRequest) (api : GrvtCcxt) (tr : Trace) :
  truthy_str (order_id request) = false ->
  truthy_int (client_order_id request) = false ->
  cancel_order_try request api tr
  = (Raise (HTTPException 400 "Must provide order_id or client_order_id"), tr).
Proof.
  intros Ho Hc. unfold cancel_order_try. rewrite Ho, Hc. reflexivity.
Qed.

(** C4, as amended. When both identifiers are supplied and the exchange
    order id is not the empty string, the one cancellation call names the
    exchange order id as its [id] and does not mention the client id. *)
Theorem cancel_prefers_order_id (request : CancelOrderRequest) (oid : string) (cid : Z)
    (api : GrvtCcxt) (tr : Trace) :
  order_id request = Some oid ->
  client_order_id request = Some cid ->
  oid <> "" ->
  exists c : Call,
    snd (cancel_order_endpoint request api tr) = tr ++ [EvCall api c] /\
    method c = "cancel_order" /\
    kwargs c !! "id" = Some (PyStr oid) /\
    correlation_id c = None.
Proof.
  intros Ho _ Hne. eexists. split.
  - apply (cancel_by_order_id_trace request oid api tr Ho Hne).
  - repeat split; reflexivity.
Qed.

(** C10. Falsy identifiers count as absent.  An empty order id behaves as
    a missing one whatever the client id is; a client id of 0, which is a
    32-bit unsigned value, is answered exactly like a request with neither
    identifier: the body raises the validation exception and the trace is
    left as it was. *)
Theorem cancel_falsy_identifiers (cid : option Z) (api : GrvtCcxt) (tr : Trace) :
  cancel_order_endpoint {| order_id := Some ""; client_order_id := cid |} api tr
    = cancel_order_endpoint {| order_id := None; client_order_id := cid |} api tr /\
  (forall n : positive,
     snd (cancel_order_endpoint
            {| order_id := Some ""; client_order_id := Some (Z.pos n) |} api tr)
     = tr ++ [EvCall api
                {| method := "cancel_order"; args := [];
                   kwargs := dict [("id", PyNone);
                                   ("params",
                                    PyDict (dict [("client_order_id", PyInt (Z.pos n));
                                                  ("time_to_live_ms", PyStr "1000")]))] |}]) /\
  is_uint32 0 = true /\
  cancel_order_try {| order_id := None; client_order_id := Some 0 |} api tr
    = (Raise (HTTPException 400 "Must provide order_id or client_order_id"), tr) /\
  cancel_order_try {| order_id := Some ""; client_order_id := Some 0 |} api tr
    = (Raise (HTTPException 400 "Must provide order_id or client_order_id"), tr) /\
  cancel_order_endpoint {| order_id := None; client_order_id := Some 0 |} api tr
    = cancel_order_endpoint {| order_id := None; client_order_id := None |} api tr /\
  cancel_order_endpoint {| order_id := Some ""; client_order_id := Some 0 |} api tr
    = cancel_order_endpoint {| order_id := None; client_order_id := None |} api tr.
Proof.
  split; [| split; [| split; [reflexivity |]]].
  - unfold cancel_order_endpoint, cancel_order_try. reflexivity.
  - intros n. apply cancel_by_client_id_trace; [reflexivity | reflexivity | discriminate].
  - repeat split.
Qed.

(** C8, as amended. Both single-order cancellation calls carry
    [time_to_live_ms = "1000"] in their [params]; the cancel-all call is
    made without any argument. *)
Theorem cancel_time_to_live (request : CancelOrderRequest) (api : GrvtCcxt) (tr : Trace) :
  (exists calls : list (GrvtCcxt * Call),
     exchange_calls (snd (cancel_order_endpoint request api tr))
       = exchange_calls tr ++ calls /\
     Forall (fun ac => time_to_live ac.2 = Some (PyStr "1000")) calls) /\
  snd (cancel_all_orders_endpoint api tr)
    = tr ++ [EvCall api {| method := "cancel_all_orders"; args := []; kwargs := ∅ |}].
Proof.
  split.
  - destruct (truthy_str (order_id request)) eqn:Ho.
    + destruct (order_id request) as [oid |] eqn:Hoid; [| discriminate].
      assert (oid <> "") as Hne.
      { intros ->. discriminate. }
      eexists. rewrite (cancel_by_order_id_trace request oid api tr Hoid Hne).
      rewrite exchange_calls_app. split; [reflexivity |].
      repeat constructor.
    + destruct (truthy_int (client_order_id request)) eqn:Hc.
      * destruct (client_order_id request) as [cid |] eqn:Hcid; [| discriminate].
        assert (cid <> 0) as Hne.
        { intros ->. discriminate. }
        eexists. rewrite (cancel_by_client_id_trace request cid api tr Ho Hcid Hne).
        rewrite exchange_calls_app. split; [reflexivity |].
        repeat constructor.
      * exists []. unfold cancel_order_endpoint, try_except.
        rewrite (cancel_rejected_trace request api tr Ho Hc). cbn.
        split; [symmetry; apply app_nil_r | constructor].
  - unfold cancel_all_orders_endpoint, try_except, mbind, M_bind, call.
    destruct (sdk tr api _); reflexivity.
Qed.

(** *** Funding history *)

(** What the one SDK call of the funding-history endpoint passes as
    [since]: [start_time * 1_000_000] for a start time other than 0, and
    [None] when the start time is missing or 0. *)
Theorem funding_history_since (symbol : string) (limit : Z) (start_time : option Z)
    (api : GrvtCcxt) (tr : Trace) :
  exists c : Call,
    snd (get_funding_history symbol limit start_time api tr) = tr ++ [EvCall api c] /\
    method c = "fetch_funding_rate_history" /\
    kwargs c !! "since"
    = Some match start_time with
           | Some t => if decide (t = 0) then PyNone else PyInt (t * 1000000)
           | None => PyNone
           end.
Proof.
  eexists. split; [| split].
  - unfold get_funding_history, try_except, mbind, M_bind, call.
    destruct (sdk tr api _); reflexivity.
  - reflexivity.
  - destruct start_time as [t |]; [| reflexivity].
    unfold funding_since, truthy_int.
    destruct (decide (t = 0)) as [-> | Hne]; [reflexivity |].
    apply Z.eqb_neq in Hne. rewrite Hne. reflexivity.
Qed.

(** C6. A start time of 0 is a start time the caller passed, and the
    comment above the conversion says a passed start time is converted; yet
    the truthiness test sends [since = None] for it, the value sent when no
    start time was passed, and not [0 * 1_000_000]. *)
Theorem funding_history_start_time_zero (symbol : string) (limit : Z)
    (api : GrvtCcxt) (tr : Trace) :
  funding_since (Some 0) = None /\
  get_funding_history symbol limit (Some 0) api tr
    = get_funding_history symbol limit None api tr /\
  exists c : Call,
    snd (get_funding_history symbol limit (Some 0) api tr) = tr ++ [EvCall api c] /\
    kwargs c !! "since" = Some PyNone /\
    kwargs c !! "since" <> Some (PyInt (0 * 1000000)).
Proof.
  split; [reflexivity | split; [reflexivity |]].
  eexists. split.
  - unfold get_funding_history. run_endpoint. destruct (sdk tr api _); reflexivity.
  - split; [reflexivity | discriminate].
Qed.

(** The example of the specification: 1,700,000,000,000 ms. *)
Lemma funding_since_example :
  funding_since (Some 1700000000000) = Some 1700000000000000000.
Proof. reflexivity. Qed.

(** *** Risk summary *)

(** C7. Whatever dictionary the exchange returns as account summary, the
    endpoint succeeds with a dictionary of exactly three keys; each holds
    the raw value when the raw key is there and [None] when it is not. *)
Theorem derisk_ratio_projection (api : GrvtCcxt) (tr : Trace) (raw : gmap string pyval) :
  sdk tr api {| method := "get_account_summary"; args := [];
                kwargs := dict [("type", PyStr "sub-account")] |}
    = Return (PyDict raw) ->
  exists summary : gmap string pyval,
    fst (get_derisk_ratio api tr) = Return (PyDict summary) /\
    dom summary = {[ "maintenance_margin"; "derisk_margin"; "derisk_ratio" ]} /\
    Forall (fun kk : string * string =>
              match raw !! kk.2 with
              | Some v => summary !! kk.1 = Some v
              | None => summary !! kk.1 = Some PyNone
              end)
      [("maintenance_margin", "maintenance_margin");
       ("derisk_margin", "derisk_margin");
       ("derisk_ratio", "derisk_to_maintenance_margin_ratio")].
Proof.
  intros Hsdk. eexists. split; [| split].
  - unfold get_derisk_ratio, try_except, mbind, M_bind, call. rewrite Hsdk. cbn.
    reflexivity.
  - unfold dict. cbn. rewrite !dom_insert_L, dom_empty_L. set_solver.
  - repeat constructor; cbn;
      match goal with |- context [raw !! ?k] => destruct (raw !! k) end; reflexivity.
Qed.

(** *** Sessions *)

(** C9. A request whose route depends on a client that is not set is
    answered 503 with the dependency's "not initialized" message; the
    endpoint body does not run and nothing is drawn or called. *)
Theorem not_initialized_unavailable (g : Globals) (r : Request) (d : Dependency)
    (body : GrvtCcxt -> M pyval) (tr : Trace) :
  route r = Depends d body ->
  handle g d = None ->
  serve g r tr
  = (HttpError 503 match d with
                   | Depends_get_read_api => "Read Client not initialized"
                   | Depends_get_trade_api => "Trade Client not initialized"
                   end, tr).
Proof.
  intros Hr Hg. unfold serve, app. rewrite Hr.
  destruct d; cbn in Hg |- *; unfold get_read_api, get_trade_api; rewrite Hg; reflexivity.
Qed.

(** Every route except the health check has a dependency. *)
Lemma route_has_dependency (r : Request) :
  r <> GET_root -> exists d body, route r = Depends d body.
Proof. destruct r; intros Hr; try contradiction; cbn; eauto. Qed.

(** C1. With both clients set, the three order endpoints run on the read
    client and the four history endpoints on the trade client: the
    cancel-all call, for one, is recorded on the read client. *)
Theorem order_endpoints_use_read_client (rc tc : GrvtCcxt) (order : OrderRequest)
    (request : CancelOrderRequest) (symbol : string) (limit : Z)
    (start_time : option Z) (tr : Trace) :
  let g := {| read_client := Some rc; trade_client := Some tc |} in
  app g (POST_orders order) = create_order order rc /\
  app g (DELETE_orders request) = cancel_order_endpoint request rc /\
  app g DELETE_orders_all = cancel_all_orders_endpoint rc /\
  clients_used (snd (app g DELETE_orders_all tr)) = clients_used tr ++ [rc] /\
  app g (GET_history_orders (Some symbol) limit) = get_order_history (Some symbol) limit tc /\
  app g (GET_history_trades symbol limit) = get_my_trades symbol limit tc /\
  app g (GET_history_funding symbol limit start_time)
    = get_funding_history symbol limit start_time tc /\
  app g (GET_history_account limit) = get_account_history limit tc.
Proof.
  cbn. repeat split.
  unfold app. cbn. unfold cancel_all_orders_endpoint, try_except, mbind, M_bind, call.
  unfold clients_used.
  destruct (sdk tr rc _); cbn; rewrite exchange_calls_app, fmap_app; reflexivity.
Qed.

(** Before startup both globals are unset: every endpoint that takes a
    client answers 503 and leaves no trace. *)
Lemma uninitialized_unavailable (r : Request) (tr : Trace) :
  r <> GET_root ->
  exists detail : string, serve uninitialized r tr = (HttpError 503 detail, tr).
Proof. destruct r; intros Hr; try contradiction; eexists; reflexivity. Qed.

(** A successful startup stores two clients: the read client built from
    [GRVT_API_KEY], the trade client from [GRVT_API_TRADE_KEY], both with
    the same private key. *)
Lemma lifespan_clients (getenv : string -> option string) (g g' : Globals) :
  lifespan getenv g = (Return tt, g') ->
  exists rc tc : GrvtCcxt,
    read_client g' = Some rc /\
    trade_client g' = Some tc /\
    parameters rc !! "api_key" = Some (py_opt PyStr (getenv "GRVT_API_KEY")) /\
    parameters tc !! "api_key" = Some (py_opt PyStr (getenv "GRVT_API_TRADE_KEY")) /\
    parameters rc !! "private_key" = parameters tc !! "private_key".
Proof.
  unfold lifespan. intros H.
  destruct (GrvtCcxt_init _) in H; [discriminate |].
  destruct (GrvtCcxt_init _) in H; [discriminate |].
  injection H as <-. do 2 eexists. repeat split.
Qed.

(** *** All endpoints *)


(** A [try] block under the common handler ends in a value or in
    [HTTPException(500, ...)], whatever the block is. *)
Lemma try_except_outcome {A} (m : M A) (tr : Trace) :
  (exists a, fst (try_except m except_Exception tr) = Return a) \/
  (exists detail, fst (try_except m except_Exception tr) = Raise (HTTPException 500 detail)).
Proof.
  unfold try_except, except_Exception, raise.
  destruct (m tr) as [[a | e] tr']; cbn; eauto.
Qed.

(** Every endpoint that takes a client is a [try] block under the common
    handler. *)
Lemma body_outcome (r : Request) (d : Dependency) (body : GrvtCcxt -> M pyval)
    (api : GrvtCcxt) (tr : Trace) :
  route r = Depends d body ->
  (exists v, fst (body api tr) = Return v) \/
  (exists detail, fst (body api tr) = Raise (HTTPException 500 detail)).
Proof.
  intros Hr. destruct r; cbn in Hr; try discriminate;
    injection Hr as <- <-; apply try_except_outcome.
Qed.

(** The events an endpoint adds: nothing, one call on its client, or (for
    an order submission) one draw possibly followed by one call. *)
Lemma body_events (r : Request) (d : Dependency) (body : GrvtCcxt -> M pyval)
    (api : GrvtCcxt) (tr : Trace) :
  route r = Depends d body ->
  exists new : Trace,
    snd (body api tr) = tr ++ new /\
    ((new = [] \/ exists c, new = [EvCall api c]) /\
       (forall order, r <> POST_orders order)
     \/ (new = [EvRand (rand_uint32 tr)]
         \/ exists c, new = [EvRand (rand_uint32 tr); EvCall api c]) /\
        exists order, r = POST_orders order).
Proof.
  intros Hr. destruct r; cbn in Hr; try discriminate; injection Hr as <- <-.
  all: try (eexists; split;
            [ run_endpoint; destruct (sdk tr api _); reflexivity
            | left; split; [right; eexists; reflexivity | discriminate] ]).
  - (* create_order *)
    unfold create_order, create_order_try. run_endpoint.
    destruct (String.eqb (order_type order) "market"); cbn.
    + eexists. split; [destruct (sdk _ api _); cbn; rewrite <- app_assoc; reflexivity |].
      right. split; [right; eexists; reflexivity | eexists; reflexivity].
    + destruct (truthy_float (price order)); cbn.
      * eexists. split; [destruct (sdk _ api _); cbn; rewrite <- app_assoc; reflexivity |].
        right. split; [right; eexists; reflexivity | eexists; reflexivity].
      * eexists. split; [reflexivity |].
        right. split; [left; reflexivity | eexists; reflexivity].
  - (* cancel_order_endpoint *)
    unfold cancel_order_endpoint, cancel_order_try.
    destruct (truthy_str (order_id request)); [| destruct (truthy_int (client_order_id request))].
    + eexists. split; [run_endpoint; destruct (sdk tr api _); reflexivity |].
      left; split; [right; eexists; reflexivity | discriminate].
    + eexists. split; [run_endpoint; destruct (sdk tr api _); reflexivity |].
      left; split; [right; eexists; reflexivity | discriminate].
    + exists []. split; [symmetry; apply app_nil_r |].
      left; split; [left; reflexivity | discriminate].
  - (* cancel_all_orders_endpoint *)
    eexists. split.
    + unfold cancel_all_orders_endpoint. run_endpoint.
      destruct (sdk tr api _); reflexivity.
    + left; split; [right; eexists; reflexivity | discriminate].
  - (* get_derisk_ratio *)
    eexists. split.
    + unfold get_derisk_ratio, py_get. run_endpoint.
      destruct (sdk tr api _) as [[] |]; reflexivity.
    + left; split; [right; eexists; reflexivity | discriminate].
  - (* set_derisk_ratio *)
    eexists. split.
    + unfold set_derisk_ratio. run_endpoint.
      destruct (sdk tr api _); reflexivity.
    + left; split; [right; eexists; reflexivity | discriminate].
  - (* get_funding_history *)
    eexists. split.
    + unfold get_funding_history. run_endpoint.
      destruct (sdk tr api _); reflexivity.
    + left; split; [right; eexists; reflexivity | discriminate].
Qed.

(** An endpoint makes at most one SDK call, and only on the client it was
    given. *)
Theorem endpoint_calls_own_client (r : Request) (d : Dependency)
    (body : GrvtCcxt -> M pyval) (api : GrvtCcxt) (tr : Trace) :
  route r = Depends d body ->
  exists calls : list (GrvtCcxt * Call),
    exchange_calls (snd (body api tr)) = exchange_calls tr ++ calls /\
    (length calls <= 1)%nat /\
    Forall (fun ac => ac.1 = api) calls.
Proof.
  intros Hr.
  destruct (body_events r d body api tr Hr) as (new & -> & Hnew).
  exists (exchange_calls new). rewrite exchange_calls_app. split; [reflexivity |].
  destruct Hnew as [[[-> | [c ->]] _] | [[-> | [c ->]] _]]; cbn;
    split; auto; repeat constructor.
Qed.


Lemma serve_fst (g : Globals) (r : Request) (tr : Trace) :
  fst (serve g r tr) = respond (fst (app g r tr)).
Proof. unfold serve. destruct (app g r tr). reflexivity. Qed.

Lemma resolve_handle (g : Globals) (d : Dependency) :
  resolve d g
  = match handle g d with
    | Some api => Return api
    | None => Raise (HTTPException 503 match d with
                                       | Depends_get_read_api => "Read Client not initialized"
                                       | Depends_get_trade_api => "Trade Client not initialized"
                                       end)
    end.
Proof.
  destruct d; cbn; unfold get_read_api, get_trade_api;
    [destruct (read_client g) | destruct (trade_client g)]; reflexivity.
Qed.

(** A request that FastAPI has parsed is answered 200, 500 or 503 and
    nothing else; 503 exactly when its route depends on a client that is
    not set. *)
Theorem serve_status (g : Globals) (r : Request) (tr : Trace) :
  (status (fst (serve g r tr)) = 200 \/
   status (fst (serve g r tr)) = 500 \/
   status (fst (serve g r tr)) = 503) /\
  (status (fst (serve g r tr)) = 503
   <-> exists d body, route r = Depends d body /\ handle g d = None).
Proof.
  rewrite serve_fst. unfold app.
  destruct (route r) as [body | d body] eqn:Hr.
  - destruct r; cbn in Hr; try discriminate. injection Hr as <-. cbn.
    split; [auto |]. split; [discriminate | intros (d & b & [=] & _)].
  - rewrite resolve_handle. destruct (handle g d) as [api |] eqn:Hg.
    + assert (status (respond (fst (body api tr))) = 200 \/
              status (respond (fst (body api tr))) = 500) as Hs.
      { destruct (body_outcome r d body api tr Hr) as [[v ->] | [detail ->]]; cbn; auto. }
      split; [tauto |]. split.
      * intros H. destruct Hs as [Hs | Hs]; rewrite Hs in H; discriminate.
      * intros (d' & b' & [= <- <-] & Hn). congruence.
    + cbn. split; [auto |]. split; [eauto | reflexivity].
Qed.

(** A pass-through endpoint makes its one call and returns the SDK's value
    as it is; when the SDK raises, the answer is
    [HTTPException(500, str(e))]. *)
Theorem pass_through_result (r : Request) (d : Dependency)
    (body : GrvtCcxt -> M pyval) (api : GrvtCcxt) (tr : Trace) :
  pass_through r = true ->
  route r = Depends d body ->
  exists c : Call,
    snd (body api tr) = tr ++ [EvCall api c] /\
    fst (body api tr)
    = match sdk tr api c with
      | Return v => Return v
      | Raise e => Raise (HTTPException 500 (str_exn e))
      end.
Proof.
  intros Hp Hr.
  destruct r; cbn in Hp; try discriminate; cbn in Hr; injection Hr as <- <-.
  all: cbv delta [get_markets get_ticker get_order_book get_balance get_account_summary
                  get_positions get_open_orders_endpoint get_exchange_description
                  get_order_history get_my_trades get_funding_history get_account_history
                  try_except mbind M_bind mret M_ret call raise except_Exception];
    cbv beta zeta;
    match goal with
    | |- context [sdk ?t ?a ?c] => exists c; destruct (sdk t a c); split; reflexivity
    end.
Qed.


(** *** Single endpoints *)

(** A market order is sent without any price, whether the request carried
    one or not, and its amount goes out as [Decimal(str(amount))]. *)
Theorem create_order_market_drops_price (order : OrderRequest) (api : GrvtCcxt)
    (tr : Trace) :
  order_type order = "market" ->
  exists c : Call,
    snd (create_order order api tr) = tr ++ [EvRand (rand_uint32 tr); EvCall api c] /\
    kwargs c !! "order_type" = Some (PyStr "market") /\
    kwargs c !! "price" = None /\
    kwargs c !! "amount" = Some (PyDecimal (str_float (amount order))).
Proof.
  intros Ht. unfold create_order, create_order_try. rewrite Ht.
  eexists. run_endpoint. split.
  - destruct (sdk _ api _); cbn; rewrite <- app_assoc; reflexivity.
  - repeat split.
Qed.

(** A valid submission makes one draw and one [create_order] call that
    carries the drawn identifier; when the exchange raises [e] on that call,
    the endpoint ends in [HTTPException(500, str(e))], whose detail is
    [str(e)] and nothing else. *)
Theorem create_order_exchange_failure (order : OrderRequest) (api : GrvtCcxt)
    (tr : Trace) :
  valid_submission order ->
  exists c : Call,
    snd (create_order order api tr) = tr ++ [EvRand (rand_uint32 tr); EvCall api c] /\
    method c = "create_order" /\
    correlation_id c = Some (PyInt (rand_uint32 tr)) /\
    forall e : exn,
      sdk (tr ++ [EvRand (rand_uint32 tr)]) api c = Raise e ->
      fst (create_order order api tr) = Raise (HTTPException 500 (str_exn e)).
Proof.
  intros [(_ & _ & Hprice & Htype) Hlimit].
  unfold create_order, create_order_try.
  destruct (String.eqb_spec (order_type order) "market") as [Hm | Hm].
  - eexists. run_endpoint.
    destruct (sdk _ api _) eqn:Hsdk; cbn; rewrite <- app_assoc;
      (split; [reflexivity |]); (split; [reflexivity |]); (split; [reflexivity |]);
      intros e' He; rewrite Hsdk in He; congruence.
  - destruct Htype as [Hl | ?]; [| contradiction].
    destruct (Hlimit Hl) as [p Hp].
    rewrite Hp, (gt_zero_truthy p (Hprice p Hp)).
    eexists. run_endpoint.
    destruct (sdk _ api _) eqn:Hsdk; cbn; rewrite <- app_assoc;
      (split; [reflexivity |]); (split; [reflexivity |]); (split; [reflexivity |]);
      intros e' He; rewrite Hsdk in He; congruence.
Qed.

(** Positions are asked for the given symbols; for a missing or empty list
    they are asked for [BTC_USDT_Perp] alone. *)
Theorem get_positions_default_symbols (symbols : option (list string))
    (api : GrvtCcxt) (tr : Trace) :
  exists c : Call,
    snd (get_positions symbols api tr) = tr ++ [EvCall api c] /\
    method c = "fetch_positions" /\
    kwargs c !! "symbols"
    = Some (PyList (PyStr <$> match symbols with
                              | Some (s :: rest) => s :: rest
                              | Some [] | None => ["BTC_USDT_Perp"]
                              end)).
Proof.
  eexists. split; [| split].
  - unfold get_positions. run_endpoint. destruct (sdk tr api _); reflexivity.
  - reflexivity.
  - destruct symbols as [[| s rest] |]; reflexivity.
Qed.

(** A request cancelled by client id: one [cancel_order] call with
    [id = None], the client id as correlation parameter and the
    time-to-live; the exchange's answer is returned under [result]. *)
Theorem cancel_by_client_id (request : CancelOrderRequest) (cid : Z)
    (api : GrvtCcxt) (tr : Trace) :
  truthy_str (order_id request) = false ->
  client_order_id request = Some cid ->
  cid <> 0 ->
  exists c : Call,
    snd (cancel_order_endpoint request api tr) = tr ++ [EvCall api c] /\
    method c = "cancel_order" /\
    kwargs c !! "id" = Some PyNone /\
    correlation_id c = Some (PyInt cid) /\
    time_to_live c = Some (PyStr "1000") /\
    fst (cancel_order_endpoint request api tr)
    = match sdk tr api c with
      | Return success =>
          Return (PyDict (dict [("status", PyStr "success"); ("result", success)]))
      | Raise e => Raise (HTTPException 500 (str_exn e))
      end.
Proof.
  intros Ho Hc Hne. eexists. split.
  - apply (cancel_by_client_id_trace request cid api tr Ho Hc Hne).
  - repeat split.
    unfold cancel_order_endpoint, cancel_order_try, truthy_int.
    rewrite Ho, Hc. apply Z.eqb_neq in Hne. rewrite Hne.
    run_endpoint. destruct (sdk tr api _); reflexivity.
Qed.

(** Cancellation calls the exchange once when one of the identifiers is
    truthy, and not at all otherwise. *)
Theorem cancel_call_count (request : CancelOrderRequest) (api : GrvtCcxt) (tr : Trace) :
  length (exchange_calls (snd (cancel_order_endpoint request api tr)))
  = (length (exchange_calls tr)
     + if truthy_str (order_id request) || truthy_int (client_order_id request)
       then 1 else 0)%nat.
Proof.
  destruct (truthy_str (order_id request)) eqn:Ho.
  - destruct (order_id request) as [oid |] eqn:Hoid; [| discriminate].
    assert (oid <> "") as Hne by (intros ->; discriminate).
    rewrite (cancel_by_order_id_trace request oid api tr Hoid Hne).
    rewrite exchange_calls_app, length_app. reflexivity.
  - destruct (truthy_int (client_order_id request)) eqn:Hc.
    + destruct (client_order_id request) as [cid |] eqn:Hcid; [| discriminate].
      assert (cid <> 0) as Hne by (intros ->; discriminate).
      rewrite (cancel_by_client_id_trace request cid api tr Ho Hcid Hne).
      rewrite exchange_calls_app, length_app. reflexivity.
    + unfold cancel_order_endpoint, try_except, except_Exception, raise.
      rewrite (cancel_rejected_trace request api tr Ho Hc).
      symmetry. apply Nat.add_0_r.
Qed.

(** The new ratio is handed to the exchange as it is; the answer echoes it
    and ignores what the exchange returned. *)
Theorem set_derisk_ratio_echo (ratio : string) (api : GrvtCcxt) (tr : Trace) :
  let c := {| method := "set_derisk_mm_ratio"; args := [PyStr ratio]; kwargs := ∅ |} in
  set_derisk_ratio ratio api tr
  = (match sdk tr api c with
     | Return _ =>
         Return (PyDict (dict [("status", PyStr "success"); ("new_ratio", PyStr ratio)]))
     | Raise e => Raise (HTTPException 500 (str_exn e))
     end, tr ++ [EvCall api c]).
Proof.
  cbv zeta. unfold set_derisk_ratio. run_endpoint.
  destruct (sdk tr api _); reflexivity.
Qed.

(** An account summary that is not a dictionary makes the risk query fail
    with status 500, after its one call. *)
Theorem derisk_ratio_not_a_dictionary (api : GrvtCcxt) (tr : Trace) (summary : pyval) :
  let c := {| method := "get_account_summary"; args := [];
              kwargs := dict [("type", PyStr "sub-account")] |} in
  sdk tr api c = Return summary ->
  (forall d, summary <> PyDict d) ->
  exists msg : string,
    get_derisk_ratio api tr
    = (Raise (HTTPException 500 (str_exn (Exception "AttributeError" msg))),
       tr ++ [EvCall api c]).
Proof.
  cbv zeta. intros Hsdk Hnd.
  unfold get_derisk_ratio, try_except, mbind, M_bind, call. rewrite Hsdk.
  destruct summary; try (eexists; reflexivity). destruct (Hnd d eq_refl).
Qed.

(** The nanosecond value handed to the exchange is never 0, is a whole
    number of milliseconds, and gives the start time back. *)
Theorem funding_since_inverse (start_time : option Z) (since : Z) :
  funding_since start_time = Some since ->
  since <> 0 /\ since mod 1000000 = 0 /\ start_time = Some (since / 1000000).
Proof.
  unfold funding_since, truthy_int.
  destruct start_time as [t |]; [| discriminate].
  destruct (Z.eqb_spec t 0) as [-> | Hne]; cbn; [discriminate |].
  intros [= <-]. split; [lia |]. split.
  - apply Z.mod_mul. lia.
  - rewrite Z.div_mul by lia. reflexivity.
Qed.

(** *** Startup *)


Lemma lifespan_success (getenv : string -> option string) (g g' : Globals) :
  lifespan getenv g = (Return tt, g') ->
  is_Some (read_client g') /\ is_Some (trade_client g').
Proof.
  unfold lifespan. intros H.
  destruct (GrvtCcxt_init _) in H; [discriminate |].
  destruct (GrvtCcxt_init _) in H; [discriminate |].
  injection H as <-. split; eexists; reflexivity.
Qed.

(** After a successful startup no request is answered 503. *)
Theorem no_503_after_startup (getenv : string -> option string) (g g' : Globals)
    (r : Request) (tr : Trace) :
  lifespan getenv g = (Return tt, g') ->
  status (fst (serve g' r tr)) = 200 \/ status (fst (serve g' r tr)) = 500.
Proof.
  intros Hl.
  destruct (lifespan_success getenv g g' Hl) as [[rc Hrc] [tc Htc]].
  rewrite serve_fst. unfold app.
  destruct (route r) as [body | d body] eqn:Hr.
  - destruct r; cbn in Hr; try discriminate. injection Hr as <-. left. reflexivity.
  - rewrite resolve_handle.
    assert (exists api, handle g' d = Some api) as [api ->]
      by (destruct d; cbn; eauto).
    destruct (body_outcome r d body api tr Hr) as [[v ->] | [detail ->]]; cbn; auto.
Qed.

End Gateway.

(** ** The properties on concrete requests *)

Lemma demo_limit_order_valid : valid_submission demo_limit_order.
Proof.
  repeat split; cbn; eauto.
  intros p [= <-]. reflexivity.
Qed.

(** C5 on a limit order served by the stand-in exchange. *)
Lemma create_order_correlation_witness :
  valid_submission demo_limit_order /\
  exists c : Call,
    snd (create_order demo_rand_uint32 demo_sdk demo_str_exn demo_str_float
           demo_limit_order demo_read_client [])
      = [EvRand 4242; EvCall demo_read_client c] /\
    method c = "create_order" /\
    correlation_id c = Some (PyInt 4242) /\
    forall response : pyval,
      demo_sdk [EvRand 4242] demo_read_client c = Return response ->
      fst (create_order demo_rand_uint32 demo_sdk demo_str_exn demo_str_float
             demo_limit_order demo_read_client [])
      = Return (PyDict (dict [("client_order_id", PyInt 4242); ("response", response)])).
Proof.
  split.
  - exact demo_limit_order_valid.
  - exact (create_order_correlation demo_rand_uint32 demo_sdk demo_str_exn demo_str_float
             demo_limit_order demo_read_client [] demo_limit_order_valid).
Defined.

(** C4 as stated fails: with an empty order id and a client id, the call
    goes out with [id = None] and the client id as correlation parameter. *)
Lemma cancel_empty_order_id_counterexample :
  ~ (forall (request : CancelOrderRequest) (oid : string) (cid : Z),
       order_id request = Some oid ->
       client_order_id request = Some cid ->
       exists c : Call,
         snd (cancel_order_endpoint demo_sdk demo_str_exn request demo_read_client [])
           = [EvCall demo_read_client c] /\
         kwargs c !! "id" = Some (PyStr oid)).
Proof.
  intros H.
  destruct (H {| order_id := Some ""; client_order_id := Some 7 |} "" 7 eq_refl eq_refl)
    as (c & Htr & Hid).
  rewrite (cancel_by_client_id_trace demo_sdk demo_str_exn _ 7) in Htr
    by (reflexivity || discriminate).
  injection Htr as <-. discriminate Hid.
Qed.

(** C4, amended, on a request carrying both identifiers. *)
Lemma cancel_prefers_order_id_witness :
  let request := {| order_id := Some "0x01"; client_order_id := Some 7 |} in
  order_id request = Some "0x01" /\
  client_order_id request = Some 7 /\
  "0x01" <> "" /\
  exists c : Call,
    snd (cancel_order_endpoint demo_sdk demo_str_exn request demo_read_client [])
      = [EvCall demo_read_client c] /\
    method c = "cancel_order" /\
    kwargs c !! "id" = Some (PyStr "0x01") /\
    correlation_id c = None.
Proof.
  cbv zeta. split; [reflexivity | split; [reflexivity | split; [discriminate |]]].
  apply (cancel_prefers_order_id demo_sdk demo_str_exn
           {| order_id := Some "0x01"; client_order_id := Some 7 |} "0x01" 7
           demo_read_client []); [reflexivity | reflexivity | discriminate].
Defined.

(** The conversion does not hold at a start time of 0: the call passes
    [since = None], not [0 * 1_000_000]. *)
Lemma funding_history_zero_counterexample :
  ~ (forall (start_time : Z) (c : Call),
       snd (get_funding_history demo_sdk demo_str_exn "BTC_USDT_Perp" 100
              (Some start_time) demo_trade_client [])
         = [EvCall demo_trade_client c] ->
       kwargs c !! "since" = Some (PyInt (start_time * 1000000))).
Proof.
  intros H.
  specialize (H 0 _ eq_refl). discriminate H.
Qed.

(** C8 as stated fails for cancel-all: its call carries no time-to-live. *)
Lemma cancel_all_time_to_live_counterexample :
  ~ (forall ac : GrvtCcxt * Call,
       ac ∈ exchange_calls
              (snd (cancel_all_orders_endpoint demo_sdk demo_str_exn demo_read_client [])) ->
       is_Some (time_to_live ac.2)).
Proof.
  intros H.
  destruct (H (demo_read_client,
               {| method := "cancel_all_orders"; args := []; kwargs := ∅ |})) as [v Hv].
  - cbn. apply list_elem_of_singleton. reflexivity.
  - discriminate Hv.
Qed.

(** C7 on the stand-in exchange, whose summary has no [derisk_margin]. *)
Lemma derisk_ratio_projection_witness :
  let raw := dict [("maintenance_margin", PyStr "12.5");
                   ("derisk_to_maintenance_margin_ratio", PyStr "2.0")] in
  demo_sdk [] demo_read_client
    {| method := "get_account_summary"; args := [];
       kwargs := dict [("type", PyStr "sub-account")] |}
    = Return (PyDict raw) /\
  exists summary : gmap string pyval,
    fst (get_derisk_ratio demo_sdk demo_str_exn demo_read_client [])
      = Return (PyDict summary) /\
    dom summary = {[ "maintenance_margin"; "derisk_margin"; "derisk_ratio" ]} /\
    Forall (fun kk : string * string =>
              match raw !! kk.2 with
              | Some v => summary !! kk.1 = Some v
              | None => summary !! kk.1 = Some PyNone
              end)
      [("maintenance_margin", "maintenance_margin");
       ("derisk_margin", "derisk_margin");
       ("derisk_ratio", "derisk_to_maintenance_margin_ratio")].
Proof.
  cbv zeta. split; [reflexivity |].
  apply (derisk_ratio_projection demo_sdk demo_str_exn demo_read_client []).
  reflexivity.
Defined.

(** The summary of that request, field by field. *)
Lemma derisk_ratio_missing_field :
  fst (get_derisk_ratio demo_sdk demo_str_exn demo_read_client [])
  = Return (PyDict (dict [("maintenance_margin", PyStr "12.5");
                          ("derisk_margin", PyNone);
                          ("derisk_ratio", PyStr "2.0")])).
Proof. reflexivity. Qed.

(** C9 on an order submission and a history query before startup. *)
Lemma not_initialized_unavailable_witness :
  (route demo_rand_uint32 demo_sdk demo_str_exn demo_str_float (POST_orders demo_market_order)
     = Depends Depends_get_read_api
         (create_order demo_rand_uint32 demo_sdk demo_str_exn demo_str_float demo_market_order) /\
   handle uninitialized Depends_get_read_api = None /\
   serve demo_rand_uint32 demo_sdk demo_str_exn demo_str_float uninitialized
     (POST_orders demo_market_order) []
   = (HttpError 503 "Read Client not initialized", [])) /\
  serve demo_rand_uint32 demo_sdk demo_str_exn demo_str_float uninitialized
    (GET_history_account 20) []
  = (HttpError 503 "Trade Client not initialized", []).
Proof.
  split; [split; [reflexivity | split; [reflexivity |]] |].
  - exact (not_initialized_unavailable demo_rand_uint32 demo_sdk demo_str_exn demo_str_float
             uninitialized (POST_orders demo_market_order) Depends_get_read_api _ []
             eq_refl eq_refl).
  - exact (not_initialized_unavailable demo_rand_uint32 demo_sdk demo_str_exn demo_str_float
             uninitialized (GET_history_account 20) Depends_get_trade_api _ []
             eq_refl eq_refl).
Defined.

(** C1, C2 on the stand-in exchange: a market order is sent on the read
    client, and a limit order without price is answered 500. *)
Lemma demo_market_order_trace :
  clients_used
    (snd (serve demo_rand_uint32 demo_sdk demo_str_exn demo_str_float demo_globals
            (POST_orders demo_market_order) []))
  = [demo_read_client].
Proof. reflexivity. Qed.

Lemma demo_limit_without_price_response :
  serve demo_rand_uint32 demo_sdk demo_str_exn demo_str_float demo_globals
    (POST_orders {| symbol := "BTC_USDT_Perp"; side := "buy"; amount := 0.5%float;
                    price := None; order_type := "limit" |}) []
  = (HttpError 500 "400: Limit order requires price", [EvRand 4242]).
Proof. reflexivity. Qed.

Lemma demo_cancel_without_identifier_response :
  serve demo_rand_uint32 demo_sdk demo_str_exn demo_str_float demo_globals
    (DELETE_orders {| order_id := None; client_order_id := None |}) []
  = (HttpError 500 "400: Must provide order_id or client_order_id", []).
Proof. reflexivity. Qed.

(** A limit order with its price, served by the stand-in exchange: one
    call, carrying the price. *)
Lemma create_order_limit_with_price_witness :
  order_type demo_limit_order = "limit" /\
  price demo_limit_order = Some 2%float /\
  gt_zero 2%float = true /\
  exists c : Call,
    exchange_calls
      (snd (create_order demo_rand_uint32 demo_sdk demo_str_exn demo_str_float
              demo_limit_order demo_read_client []))
      = exchange_calls [] ++ [(demo_read_client, c)] /\
    method c = "create_order" /\
    kwargs c !! "price" = Some (PyFloat 2%float).
Proof.
  split; [reflexivity | split; [reflexivity | split; [reflexivity |]]].
  exact (create_order_limit_with_price demo_rand_uint32 demo_sdk demo_str_exn demo_str_float
           demo_limit_order 2%float demo_read_client [] eq_refl eq_refl eq_refl).
Defined.

(** ** Further properties on concrete requests *)

(** A cancellation by order id: one call, on the client it was given. *)
Lemma endpoint_calls_own_client_witness :
  let request := {| order_id := Some "0x01"; client_order_id := None |} in
  route demo_rand_uint32 demo_sdk demo_str_exn demo_str_float (DELETE_orders request)
    = Depends Depends_get_read_api (cancel_order_endpoint demo_sdk demo_str_exn request) /\
  exists calls : list (GrvtCcxt * Call),
    exchange_calls (snd (cancel_order_endpoint demo_sdk demo_str_exn request
                           demo_read_client []))
      = exchange_calls [] ++ calls /\
    (length calls <= 1)%nat /\
    Forall (fun ac => ac.1 = demo_read_client) calls.
Proof.
  cbv zeta. split; [reflexivity |].
  exact (endpoint_calls_own_client demo_rand_uint32 demo_sdk demo_str_exn demo_str_float
           (DELETE_orders {| order_id := Some "0x01"; client_order_id := None |})
           Depends_get_read_api _ demo_read_client [] eq_refl).
Defined.


(** The ticker of a rejecting exchange: one call, then 500 with the
    exchange's message. *)
Lemma pass_through_result_witness :
  pass_through (GET_ticker "BTC_USDT_Perp") = true /\
  route demo_rand_uint32 demo_rejecting_sdk demo_str_exn demo_str_float
    (GET_ticker "BTC_USDT_Perp")
    = Depends Depends_get_read_api
        (get_ticker demo_rejecting_sdk demo_str_exn "BTC_USDT_Perp") /\
  exists c : Call,
    snd (get_ticker demo_rejecting_sdk demo_str_exn "BTC_USDT_Perp" demo_read_client [])
      = [] ++ [EvCall demo_read_client c] /\
    fst (get_ticker demo_rejecting_sdk demo_str_exn "BTC_USDT_Perp" demo_read_client [])
    = match demo_rejecting_sdk [] demo_read_client c with
      | Return v => Return v
      | Raise e => Raise (HTTPException 500 (demo_str_exn e))
      end.
Proof.
  split; [reflexivity | split; [reflexivity |]].
  exact (pass_through_result demo_rand_uint32 demo_rejecting_sdk demo_str_exn demo_str_float
           (GET_ticker "BTC_USDT_Perp") Depends_get_read_api _ demo_read_client []
           eq_refl eq_refl).
Defined.

Lemma demo_rejected_ticker_response :
  serve demo_rand_uint32 demo_rejecting_sdk demo_str_exn demo_str_float demo_globals
    (GET_ticker "BTC_USDT_Perp") []
  = (HttpError 500 "rejected: fetch_ticker",
     [EvCall demo_read_client
        {| method := "fetch_ticker"; args := [PyStr "BTC_USDT_Perp"]; kwargs := ∅ |}]).
Proof. reflexivity. Qed.

(** A market order that carries a price. *)
Lemma create_order_market_drops_price_witness :
  let order := {| symbol := "BTC_USDT_Perp"; side := "sell"; amount := 0.5%float;
                  price := Some 2%float; order_type := "market" |} in
  order_type order = "market" /\
  exists c : Call,
    snd (create_order demo_rand_uint32 demo_sdk demo_str_exn demo_str_float order
           demo_read_client [])
      = [] ++ [EvRand (demo_rand_uint32 []); EvCall demo_read_client c] /\
    kwargs c !! "order_type" = Some (PyStr "market") /\
    kwargs c !! "price" = None /\
    kwargs c !! "amount" = Some (PyDecimal (demo_str_float (amount order))).
Proof.
  cbv zeta. split; [reflexivity |].
  exact (create_order_market_drops_price demo_rand_uint32 demo_sdk demo_str_exn demo_str_float
           {| symbol := "BTC_USDT_Perp"; side := "sell"; amount := 0.5%float;
              price := Some 2%float; order_type := "market" |}
           demo_read_client [] eq_refl).
Defined.

(** A valid limit order on a rejecting exchange. *)
Lemma create_order_exchange_failure_witness :
  valid_submission demo_limit_order /\
  exists c : Call,
    snd (create_order demo_rand_uint32 demo_rejecting_sdk demo_str_exn demo_str_float
           demo_limit_order demo_read_client [])
      = [] ++ [EvRand (demo_rand_uint32 []); EvCall demo_read_client c] /\
    method c = "create_order" /\
    correlation_id c = Some (PyInt (demo_rand_uint32 [])) /\
    forall e : exn,
      demo_rejecting_sdk ([] ++ [EvRand (demo_rand_uint32 [])]) demo_read_client c = Raise e ->
      fst (create_order demo_rand_uint32 demo_rejecting_sdk demo_str_exn demo_str_float
             demo_limit_order demo_read_client [])
      = Raise (HTTPException 500 (demo_str_exn e)).
Proof.
  split; [exact demo_limit_order_valid |].
  exact (create_order_exchange_failure demo_rand_uint32 demo_rejecting_sdk demo_str_exn
           demo_str_float demo_limit_order demo_read_client [] demo_limit_order_valid).
Defined.

Lemma demo_rejected_order_response :
  fst (serve demo_rand_uint32 demo_rejecting_sdk demo_str_exn demo_str_float demo_globals
         (POST_orders demo_limit_order) [])
  = HttpError 500 "rejected: create_order".
Proof. reflexivity. Qed.

(** A cancellation by client id with an empty order id. *)
Lemma cancel_by_client_id_witness :
  let request := {| order_id := Some ""; client_order_id := Some 7 |} in
  truthy_str (order_id request) = false /\
  client_order_id request = Some 7 /\
  7 <> 0 /\
  exists c : Call,
    snd (cancel_order_endpoint demo_sdk demo_str_exn request demo_read_client [])
      = [] ++ [EvCall demo_read_client c] /\
    method c = "cancel_order" /\
    kwargs c !! "id" = Some PyNone /\
    correlation_id c = Some (PyInt 7) /\
    time_to_live c = Some (PyStr "1000") /\
    fst (cancel_order_endpoint demo_sdk demo_str_exn request demo_read_client [])
    = match demo_sdk [] demo_read_client c with
      | Return success =>
          Return (PyDict (dict [("status", PyStr "success"); ("result", success)]))
      | Raise e => Raise (HTTPException 500 (demo_str_exn e))
      end.
Proof.
  cbv zeta. split; [reflexivity | split; [reflexivity | split; [discriminate |]]].
  apply (cancel_by_client_id demo_sdk demo_str_exn
           {| order_id := Some ""; client_order_id := Some 7 |} 7 demo_read_client []);
    [reflexivity | reflexivity | discriminate].
Defined.

(** The risk query on an exchange that answers [None]. *)
Lemma derisk_ratio_not_a_dictionary_witness :
  let c := {| method := "get_account_summary"; args := [];
              kwargs := dict [("type", PyStr "sub-account")] |} in
  demo_null_sdk [] demo_read_client c = Return PyNone /\
  (forall d, PyNone <> PyDict d) /\
  exists msg : string,
    get_derisk_ratio demo_null_sdk demo_str_exn demo_read_client []
    = (Raise (HTTPException 500 (demo_str_exn (Exception "AttributeError" msg))),
       [] ++ [EvCall demo_read_client c]).
Proof.
  cbv zeta. split; [reflexivity | split; [discriminate |]].
  apply (derisk_ratio_not_a_dictionary demo_null_sdk demo_str_exn demo_read_client [] PyNone);
    [reflexivity | discriminate].
Defined.

(** The start time of the specification's example, recovered. *)
Lemma funding_since_inverse_witness :
  funding_since (Some 1700000000000) = Some 1700000000000000000 /\
  1700000000000000000 <> 0 /\
  1700000000000000000 mod 1000000 = 0 /\
  Some 1700000000000 = Some (1700000000000000000 / 1000000).
Proof.
  split; [reflexivity |].
  exact (funding_since_inverse (Some 1700000000000) 1700000000000000000 eq_refl).
Defined.

(** Startup in the stand-in environment. *)
Lemma demo_lifespan_succeeds :
  fst (lifespan demo_GrvtCcxt_init demo_getenv uninitialized) = Return tt.
Proof. reflexivity. Qed.

Lemma lifespan_clients_witness :
  let g' := snd (lifespan demo_GrvtCcxt_init demo_getenv uninitialized) in
  lifespan demo_GrvtCcxt_init demo_getenv uninitialized = (Return tt, g') /\
  exists rc tc : GrvtCcxt,
    read_client g' = Some rc /\
    trade_client g' = Some tc /\
    parameters rc !! "api_key" = Some (py_opt PyStr (demo_getenv "GRVT_API_KEY")) /\
    parameters tc !! "api_key" = Some (py_opt PyStr (demo_getenv "GRVT_API_TRADE_KEY")) /\
    parameters rc !! "private_key" = parameters tc !! "private_key".
Proof.
  cbv zeta. split; [reflexivity |].
  exact (lifespan_clients demo_GrvtCcxt_init demo_getenv uninitialized _ eq_refl).
Defined.

Lemma no_503_after_startup_witness :
  let g' := snd (lifespan demo_GrvtCcxt_init demo_getenv uninitialized) in
  lifespan demo_GrvtCcxt_init demo_getenv uninitialized = (Return tt, g') /\
  (status (fst (serve demo_rand_uint32 demo_rejecting_sdk demo_str_exn demo_str_float g'
                  (GET_history_account 20) [])) = 200 \/
   status (fst (serve demo_rand_uint32 demo_rejecting_sdk demo_str_exn demo_str_float g'
                  (GET_history_account 20) [])) = 500).
Proof.
  cbv zeta. split; [reflexivity |].
  exact (no_503_after_startup demo_rand_uint32 demo_rejecting_sdk demo_str_exn demo_str_float
           demo_GrvtCcxt_init demo_getenv uninitialized _ (GET_history_account 20) []
           eq_refl).
Defined.
